(** * LoRaWAN bin sensor: uplink scheduling and event reaction

    A shallow embedding of [src/main.cpp] (an Arduino sketch for an AVR
    board driving the LMIC LoRaWAN stack) and the properties of its
    uplink submitter [do_send], its event reactor [onEvent] and its
    battery sampler [readVcc].

    The sketch talks to three collaborators whose code is not part of
    it: the LMIC stack, the LowPower library and the AVR hardware
    registers.  Every interaction with them is kept as a node of a
    program tree; an oracle supplies the values they give back, and
    running a tree against an oracle yields the sequence of
    interactions.  A property proved for every oracle therefore holds
    whatever the collaborators answer. *)

From Stdlib Require Import ZArith List String Lia.
From stdpp Require Import base list.

Local Open Scope Z_scope.

(** ** Integer types of the target (avr-gcc: 16-bit [int], 32-bit [long]) *)

Module CInt.

(** Conversion to [uint8_t], [uint16_t] ([unsigned], [u2_t]). *)
Definition u8 (z : Z) : Z := z mod 2 ^ 8.
Definition u16 (z : Z) : Z := z mod 2 ^ 16.

(** Conversion to a signed type of [w] bits, two's complement. *)
Definition signed (w : Z) (z : Z) : Z :=
  (z + 2 ^ (w - 1)) mod 2 ^ w - 2 ^ (w - 1).

(** [int] and [long] / [ostime_t] ([int32_t]). *)
Definition s16 : Z -> Z := signed 16.
Definition s32 : Z -> Z := signed 32.

End CInt.
Import CInt.

(** ** The collaborators' interface *)

(** What the sketch takes from the headers of LMIC and of the AVR
    toolchain: two flag masks, the seconds-to-ticks macro, the
    multiplexer selection written to [ADMUX] (chosen by [#if] on the
    processor) and the position of the start-conversion bit. *)
Record platform : Type := {
  OP_TXRXPEND : Z;
  TXRX_ACK : Z;
  sec2osticks : Z -> Z;
  ADMUX_vcc : Z;
  ADSC : Z
}.

(** LMIC's event tags, in the order of the [switch] of [onEvent]; a tag
    with no [case] of its own is [EV_unknown]. *)
Inductive ev_t : Type :=
| EV_SCAN_TIMEOUT | EV_BEACON_FOUND | EV_BEACON_MISSED | EV_BEACON_TRACKED
| EV_JOINING | EV_JOINED | EV_RFU1 | EV_JOIN_FAILED | EV_REJOIN_FAILED
| EV_TXCOMPLETE | EV_LOST_TSYNC | EV_RESET | EV_RXCOMPLETE
| EV_LINK_DEAD | EV_LINK_ALIVE
| EV_unknown (tag : Z).

(** LowPower's arguments. *)
Inductive period_t : Type :=
| SLEEP_15MS | SLEEP_30MS | SLEEP_60MS | SLEEP_120MS | SLEEP_250MS
| SLEEP_500MS | SLEEP_1S | SLEEP_2S | SLEEP_4S | SLEEP_8S | SLEEP_FOREVER.
Inductive adc_t : Type := ADC_OFF | ADC_ON.
Inductive bod_t : Type := BOD_OFF | BOD_ON.

(** The job handle and the function a job runs. *)
Inductive osjob_t : Type := sendjob.
Inductive osjobcb_t : Type := cb_do_send.

(** What [Serial.print] is given. *)
Inductive printable : Type :=
| Str (s : string)
| Num (n : Z).

(** Procedures called for their effect. *)
Inductive call : Type :=
| Serial_print (x : printable)
| Serial_println (x : printable)
| Serial_flush
| LMIC_setTxData2 (port : Z) (data : list Z) (dlen : Z) (confirmed : Z)
| LMIC_setLinkCheckMode (enabled : Z)
| LowPower_powerDown (period : period_t) (adc : adc_t) (bod : bod_t)
| os_setTimedCallback (job : osjob_t) (time : Z) (cb : osjobcb_t)
| write_ADMUX (v : Z)
| write_ADCSRA (v : Z)
| delay (ms : Z).

(** Values read from outside the sketch: the clock, fields of the
    [LMIC] structure, hardware registers. *)
Inductive query : Type :=
| os_getTime
| LMIC_opmode
| LMIC_txrxFlags
| LMIC_dataLen
| read_ADCSRA
| read_ADCL
| read_ADCH.

(** ** Programs *)

(** A program either returns, or runs into undefined behaviour, or has
    used up its polling budget in a busy-wait, or interacts and goes
    on. *)
Inductive Prog (A : Type) : Type :=
| Ret (a : A)
| Undefined
| Stalled
| Do (c : call) (k : Prog A)
| Ask (q : query) (k : Z -> Prog A).

Arguments Ret {A} a.
Arguments Undefined {A}.
Arguments Stalled {A}.
Arguments Do {A} c k.
Arguments Ask {A} q k.

Fixpoint bind {A B : Type} (p : Prog A) (f : A -> Prog B) : Prog B :=
  match p with
  | Ret a => f a
  | Undefined => Undefined
  | Stalled => Stalled
  | Do c k => Do c (bind k f)
  | Ask q k => Ask q (fun z => bind (k z) f)
  end.

Declare Scope prog_scope.
Delimit Scope prog_scope with prog.
Notation "x <- p ;; q" := (bind p (fun x => q))
  (at level 100, p at next level, right associativity) : prog_scope.
Notation "p ;; q" := (bind p (fun _ => q))
  (at level 100, right associativity) : prog_scope.
Local Open Scope prog_scope.

Definition perform (c : call) : Prog unit := Do c (Ret tt).
Definition read (q : query) : Prog Z := Ask q Ret.

(** [if (c) body] with no [else]. *)
Definition when (c : bool) (body : Prog unit) : Prog unit :=
  if c then body else Ret tt.

(** [for (int i = 0; i < n; i++) body], for a body that does not use
    [i]: the body runs [n] times, not at all when [n <= 0]. *)
Fixpoint repeat_times (n : nat) (body : Prog unit) : Prog unit :=
  match n with
  | O => Ret tt
  | S n' => body ;; repeat_times n' body
  end.

(** ** Running a program *)

Inductive event : Type :=
| Did (c : call)
| Asked (q : query) (answer : Z).

(** The collaborators: what a query yields after a given history. *)
Definition oracle : Type := list event -> query -> Z.

Inductive outcome (A : Type) : Type :=
| Returned (a : A)
| Crashed
| Spinning.

Arguments Returned {A} a.
Arguments Crashed {A}.
Arguments Spinning {A}.

(** [run o p h]: the outcome of [p] started after history [h], and the
    events [p] itself adds. *)
Fixpoint run {A : Type} (o : oracle) (p : Prog A) (h : list event)
  : outcome A * list event :=
  match p with
  | Ret a => (Returned a, [])
  | Undefined => (Crashed, [])
  | Stalled => (Spinning, [])
  | Do c k =>
      let '(r, es) := run o k (h ++ [Did c]) in (r, Did c :: es)
  | Ask q k =>
      let z := o h q in
      let '(r, es) := run o (k z) (h ++ [Asked q z]) in (r, Asked q z :: es)
  end.

(** ** The sketch *)

(** The sketch's own variables: [payload], [times] and [rest]. *)
Record globals : Type := {
  payload : list Z;
  times : Z;
  rest : Z
}.

(** [const unsigned TX_INTERVAL = 20;] *)
Definition TX_INTERVAL : Z := 20.

(** [times = TX_INTERVAL / 8; rest = TX_INTERVAL % 8;] for an interval
    that is the value of an [unsigned]: the quotient and the remainder
    are taken on [unsigned] and stored into [int]. *)
Definition decompose (interval : Z) : Z * Z :=
  (s16 (interval / 8), s16 (interval mod 8)).

(** The cursor and the two stores of [do_send]:
    [uint32_t i = 0;
     payload[i++] = (batteryLevel_mV >> 8) & 0xFF;
     payload[i++] = batteryLevel_mV & 0xFF;]
    Both indices are below the 20 bytes of [payload]. *)
Definition build_payload (buf : list Z) (batteryLevel_mV : Z) : list Z * Z :=
  let i := 0 in
  let buf := <[Z.to_nat i := u8 (Z.land (Z.shiftr batteryLevel_mV 8) 255)]> buf in
  let i := i + 1 in
  let buf := <[Z.to_nat i := u8 (Z.land batteryLevel_mV 255)]> buf in
  let i := i + 1 in
  (buf, i).

(** [long result = (high << 8) | low;] with [high] and [low] promoted
    to [int]. *)
Definition adc_result (low high : Z) : Z :=
  Z.lor (s16 (Z.shiftl high 8)) low.

(** [result = 1125300L / result; return result;]: the division of C
    truncates; a zero divisor is undefined behaviour.  The quotient of
    1125300 by a nonzero [int] fits a [long]. *)
Definition vcc_of_adc (low high : Z) : Prog Z :=
  let result := adc_result low high in
  if result =? 0 then Undefined else Ret (Z.quot 1125300 result).

Section Sketch.

Variable hw : platform.

(** [_BV(bit)] *)
Definition _BV (bit : Z) : Z := Z.shiftl 1 bit.

(** [while (bit_is_set(ADCSRA, ADSC));] with a budget of polls. *)
Fixpoint wait_conversion (fuel : nat) : Prog unit :=
  match fuel with
  | O => Stalled
  | S fuel' =>
      v <- read read_ADCSRA ;;
      if negb (Z.land (u8 v) (_BV (ADSC hw)) =? 0)
      then wait_conversion fuel'
      else Ret tt
  end.

(** The first half of [readVcc]: select the reference, let it settle,
    start a conversion and wait for its end. *)
Definition measure (fuel : nat) : Prog unit :=
  perform (write_ADMUX (ADMUX_vcc hw)) ;;
  perform (delay 2) ;;
  v <- read read_ADCSRA ;;
  perform (write_ADCSRA (u8 (Z.lor (u8 v) (_BV (ADSC hw))))) ;;
  wait_conversion fuel.

(** [readVcc]: after the conversion, [ADCL] is read, then [ADCH], each
    into a [uint8_t]. *)
Definition readVcc (fuel : nat) : Prog Z :=
  measure fuel ;;
  low <- read read_ADCL ;;
  high <- read read_ADCH ;;
  vcc_of_adc (u8 low) (u8 high).

(** [do_send]; its job argument is not used.  [fuel] is the polling
    budget of the [readVcc] it calls. *)
Definition do_send (fuel : nat) (g : globals) : Prog globals :=
  opmode <- read LMIC_opmode ;;
  if negb (Z.land (u16 opmode) (OP_TXRXPEND hw) =? 0) then
    perform (Serial_println (Str "OP_TXRXPEND, not sending")) ;;
    Ret g
  else
    batteryLevel_mV <- readVcc fuel ;;
    let '(buf, i) := build_payload (payload g) batteryLevel_mV in
    perform (LMIC_setTxData2 1 buf (u8 i) 0) ;;
    perform (Serial_println (Str "Packet queued")) ;;
    Ret {| payload := buf; times := times g; rest := rest g |}.

(** One [case] that only prints its name. *)
Definition log_only (name : string) (g : globals) : Prog globals :=
  perform (Serial_println (Str name)) ;;
  Ret g.

(** The [EV_TXCOMPLETE] case up to the comment [enter sleep]: what
    came down with the uplink is printed. *)
Definition report_downlink : Prog unit :=
  perform (Serial_println
             (Str "EV_TXCOMPLETE (includes waiting for RX windows)")) ;;
  txrxFlags <- read LMIC_txrxFlags ;;
  when (negb (Z.land (u8 txrxFlags) (TXRX_ACK hw) =? 0))
       (perform (Serial_println (Str "Received ack"))) ;;
  dataLen <- read LMIC_dataLen ;;
  when (negb (u8 dataLen =? 0))
       (perform (Serial_println (Str "Received ")) ;;
        dataLen' <- read LMIC_dataLen ;;
        perform (Serial_println (Num (u8 dataLen'))) ;;
        perform (Serial_println (Str " bytes of payload"))).

(** The [EV_TXCOMPLETE] case from [enter sleep] on, for a
    [TX_INTERVAL] of [interval]: sleep, then schedule the next
    transmission. *)
Definition duty_cycle (interval : Z) (g : globals) : Prog globals :=
  let '(times', rest') := decompose interval in
  perform (Serial_print (Str "Sleeping ")) ;;
  perform (Serial_print (Num times')) ;;
  perform (Serial_print (Str " of 8 seconds. Rest: ")) ;;
  perform (Serial_println (Num rest')) ;;
  perform Serial_flush ;;
  repeat_times (Z.to_nat times')
               (perform (LowPower_powerDown SLEEP_8S ADC_OFF BOD_OFF)) ;;
  now <- read os_getTime ;;
  perform (os_setTimedCallback sendjob
             (s32 (s32 now + sec2osticks hw rest')) cb_do_send) ;;
  Ret {| payload := payload g; times := times'; rest := rest' |}.

Definition tx_complete (interval : Z) (g : globals) : Prog globals :=
  report_downlink ;;
  duty_cycle interval g.

(** [onEvent] for a [TX_INTERVAL] of [interval]. *)
Definition onEvent_every (interval : Z) (ev : ev_t) (g : globals)
  : Prog globals :=
  t <- read os_getTime ;;
  perform (Serial_print (Num (s32 t))) ;;
  perform (Serial_print (Str ": ")) ;;
  match ev with
  | EV_SCAN_TIMEOUT => log_only "EV_SCAN_TIMEOUT" g
  | EV_BEACON_FOUND => log_only "EV_BEACON_FOUND" g
  | EV_BEACON_MISSED => log_only "EV_BEACON_MISSED" g
  | EV_BEACON_TRACKED => log_only "EV_BEACON_TRACKED" g
  | EV_JOINING => log_only "EV_JOINING" g
  | EV_JOINED =>
      perform (Serial_println (Str "EV_JOINED")) ;;
      perform (LMIC_setLinkCheckMode 0) ;;
      Ret g
  | EV_RFU1 => log_only "EV_RFU1" g
  | EV_JOIN_FAILED => log_only "EV_JOIN_FAILED" g
  | EV_REJOIN_FAILED => log_only "EV_REJOIN_FAILED" g
  | EV_TXCOMPLETE => tx_complete interval g
  | EV_LOST_TSYNC => log_only "EV_LOST_TSYNC" g
  | EV_RESET => log_only "EV_RESET" g
  | EV_RXCOMPLETE => log_only "EV_RXCOMPLETE" g
  | EV_LINK_DEAD => log_only "EV_LINK_DEAD" g
  | EV_LINK_ALIVE => log_only "EV_LINK_ALIVE" g
  | EV_unknown _ => log_only "Unknown event" g
  end.

Definition onEvent : ev_t -> globals -> Prog globals :=
  onEvent_every TX_INTERVAL.

End Sketch.

(** ** What a run shows *)

Definition calls_of (es : list event) : list call :=
  omap (fun e => match e with Did c => Some c | Asked _ _ => None end) es.

Definition is_serial (c : call) : bool :=
  match c with
  | Serial_print _ | Serial_println _ | Serial_flush => true
  | _ => false
  end.

(** Logging: output on the serial line, and reading the clock or a
    field of [LMIC]. *)
Definition observational (e : event) : bool :=
  match e with
  | Did c => is_serial c
  | Asked q _ =>
      match q with
      | os_getTime | LMIC_opmode | LMIC_txrxFlags | LMIC_dataLen => true
      | read_ADCSRA | read_ADCL | read_ADCH => false
      end
  end.

(** A call that blocks for a time. *)
Definition is_sleep (c : call) : bool :=
  match c with
  | LowPower_powerDown _ _ _ | delay _ => true
  | _ => false
  end.

(** A scheduling action: a blocking sleep or a timed callback. *)
Definition is_scheduling (c : call) : bool :=
  match c with
  | LowPower_powerDown _ _ _ | delay _ | os_setTimedCallback _ _ _ => true
  | _ => false
  end.

Definition is_enqueue (c : call) : bool :=
  match c with
  | LMIC_setTxData2 _ _ _ _ => true
  | _ => false
  end.

(** An access to the converter, as [readVcc] makes them. *)
Definition touches_adc (e : event) : bool :=
  match e with
  | Did (write_ADMUX _) | Did (write_ADCSRA _) | Did (delay _) => true
  | Asked read_ADCSRA _ | Asked read_ADCL _ | Asked read_ADCH _ => true
  | _ => false
  end.

Definition sleeps (es : list event) : list call :=
  List.filter is_sleep (calls_of es).

Definition scheduling (es : list event) : list call :=
  List.filter is_scheduling (calls_of es).

Definition enqueued (es : list event) : list call :=
  List.filter is_enqueue (calls_of es).

Definition link_check_modes (es : list event) : list Z :=
  omap (fun e => match e with
                 | Did (LMIC_setLinkCheckMode m) => Some m
                 | _ => None
                 end) es.

(** The value a receiver reads from the first two bytes, the first
    being the more significant. *)
Definition transmitted_mV (buf : list Z) : Z :=
  match buf with
  | hi :: lo :: _ => hi * 2 ^ 8 + lo
  | _ => 0
  end.

(** The sleep of one chunk. *)
Definition chunk_sleep : call := LowPower_powerDown SLEEP_8S ADC_OFF BOD_OFF.

(** The sleeps as the specification's scheduler contract words them:
    [interval / 8] sleeps of one chunk, then one more blocking sleep
    for the remainder unless the remainder is zero. *)
Definition sleeps_as_specified (interval : Z) (es : list event) : Prop :=
  exists remainder_sleep : list call,
    sleeps es =
      repeat chunk_sleep (Z.to_nat (interval / 8)) ++ remainder_sleep /\
    length remainder_sleep = if interval mod 8 =? 0 then 0%nat else 1%nat.

(** ** A board and two surroundings, for examples *)

(** LMIC 1.5 on an ATmega328P: [OP_TXRXPEND] and [TXRX_ACK] are both
    [0x80], a tick is 16 microseconds, [ADMUX] is given
    [REFS0 | MUX3 | MUX2 | MUX1] and [ADSC] is bit 6. *)
Definition atmega328p : platform := {|
  OP_TXRXPEND := 128;
  TXRX_ACK := 128;
  sec2osticks := fun sec => sec * 62500;
  ADMUX_vcc := 78;
  ADSC := 6
|}.

(** Nothing pending, no downlink, clock at 0, and a converter that is
    ready at the first poll and reads [low] and [high]. *)
Definition idle_with_adc (low high : Z) : oracle :=
  fun _ q =>
    match q with
    | read_ADCL => low
    | read_ADCH => high
    | _ => 0
    end.

(** A transmission is pending. *)
Definition busy : oracle :=
  fun _ q =>
    match q with
    | LMIC_opmode => 128
    | _ => 0
    end.

(** The buffer and the variables as the program starts. *)
Definition initial : globals :=
  {| payload := repeat 0 20; times := 0; rest := 0 |}.

(** ** The keys handed to LMIC *)

(** [static const u1_t PROGMEM APPEUI[8]], [DEVEUI[8]], [APPKEY[16]]. *)
Definition APPEUI : list Z :=
  [0xC0; 0x0C; 0x01; 0xD0; 0x7E; 0xD5; 0xB3; 0x70].
Definition DEVEUI : list Z :=
  [0x53; 0x34; 0x43; 0x45; 0x3F; 0xF3; 0xF3; 0x23].
Definition APPKEY : list Z :=
  [0x73; 0x99; 0x8E; 0xFD; 0x71; 0x9C; 0xBB; 0xFE;
   0x74; 0xBB; 0xB3; 0x21; 0x0A; 0x22; 0x97; 0x57].

(** [memcpy_P(dest, src, n)] on the bytes [dest] points to: the first
    [n] bytes become those of [src].  Fewer than [n] bytes on either
    side is an access out of bounds, undefined behaviour. *)
Definition memcpy_P (dest src : list Z) (n : nat) : option (list Z) :=
  if (n <=? length dest)%nat && (n <=? length src)%nat
  then Some (take n src ++ drop n dest)
  else None.

Definition os_getArtEui (buf : list Z) : option (list Z) :=
  memcpy_P buf APPEUI 8.
Definition os_getDevEui (buf : list Z) : option (list Z) :=
  memcpy_P buf DEVEUI 8.
Definition os_getDevKey (buf : list Z) : option (list Z) :=
  memcpy_P buf APPKEY 16.

(** ** More of what a run shows *)

(** The reads of the converter's two data registers, in order. *)
Definition adc_data_reads (es : list event) : list query :=
  omap (fun e => match e with
                 | Asked read_ADCL _ => Some read_ADCL
                 | Asked read_ADCH _ => Some read_ADCH
                 | _ => None
                 end) es.

Definition is_callback (c : call) : bool :=
  match c with
  | os_setTimedCallback _ _ _ => true
  | _ => false
  end.

Definition callbacks (es : list event) : list call :=
  List.filter is_callback (calls_of es).


(** The variables [onEvent] leaves. *)
Definition after_event (interval : Z) (ev : ev_t) (g : globals) : globals :=
  match ev with
  | EV_TXCOMPLETE =>
      {| payload := payload g;
         times := fst (decompose interval);
         rest := snd (decompose interval) |}
  | _ => g
  end.

(** A converter that never ends its conversion, on the board of the
    examples: [ADCSRA] always reads with bit 6 set. *)
Definition stuck : oracle :=
  fun _ q =>
    match q with
    | read_ADCSRA => 64
    | _ => 0
    end.

(** ** Facts on the integer conversions *)

Lemma u8_range z : 0 <= u8 z < 256.
Proof. unfold u8. apply Z.mod_pos_bound. lia. Qed.

Lemma u8_small z : 0 <= z < 256 -> u8 z = z.
Proof. intros H. unfold u8. apply Z.mod_small. lia. Qed.


Lemma s16_small z : - 32768 <= z < 32768 -> s16 z = z.
Proof.
  intros H. unfold s16, signed.
  change (2 ^ (16 - 1)) with 32768. change (2 ^ 16) with 65536.
  rewrite Z.mod_small by lia. lia.
Qed.

Lemma decompose_in_range interval :
  0 <= interval < 65536 -> decompose interval = (interval / 8, interval mod 8).
Proof.
  intros H. unfold decompose.
  pose proof (Z.mod_pos_bound interval 8).
  assert (0 <= interval / 8 < 8192)
    by (split; [apply Z.div_pos | apply Z.div_lt_upper_bound]; lia).
  rewrite !s16_small by lia. reflexivity.
Qed.

(** ** Facts on runs *)

Lemma run_bind {A B : Type} (o : oracle) (p : Prog A) (f : A -> Prog B) :
  forall h,
    run o (bind p f) h =
    match run o p h with
    | (Returned a, es) =>
        let '(r, es') := run o (f a) (h ++ es) in (r, es ++ es')
    | (Crashed, es) => (Crashed, es)
    | (Spinning, es) => (Spinning, es)
    end.
Proof.
  induction p as [a| | |c k IH|q k IH]; intros h; simpl.
  - rewrite app_nil_r. destruct (run o (f a) h). reflexivity.
  - reflexivity.
  - reflexivity.
  - rewrite IH. destruct (run o k (h ++ [Did c])) as [[a| |] es]; try reflexivity.
    rewrite <- app_assoc. simpl.
    destruct (run o (f a) (h ++ Did c :: es)). reflexivity.
  - rewrite IH.
    destruct (run o (k (o h q)) (h ++ [Asked q (o h q)])) as [[a| |] es];
      try reflexivity.
    rewrite <- app_assoc. simpl.
    destruct (run o (f a) (h ++ Asked q (o h q) :: es)). reflexivity.
Qed.

(** When the first part returns, the whole goes on from there. *)
Lemma run_bind_returned {A B : Type} (o : oracle) (p : Prog A)
      (f : A -> Prog B) h a es r es' :
  run o p h = (Returned a, es) ->
  run o (f a) (h ++ es) = (r, es') ->
  run o (bind p f) h = (r, es ++ es').
Proof. intros Hp Hf. rewrite run_bind, Hp, Hf. reflexivity. Qed.

(** A loop of [n] rounds of one call makes that call [n] times. *)
Lemma run_repeat_times (o : oracle) (c : call) :
  forall n h,
    run o (repeat_times n (perform c)) h = (Returned tt, repeat (Did c) n).
Proof.
  induction n as [|n IH]; intros h; simpl.
  - reflexivity.
  - rewrite IH. reflexivity.
Qed.

Lemma calls_of_app es1 es2 : calls_of (es1 ++ es2) = calls_of es1 ++ calls_of es2.
Proof. unfold calls_of. apply omap_app. Qed.

Lemma calls_of_repeat_Did c n : calls_of (repeat (Did c) n) = repeat c n.
Proof. induction n as [|n IH]; simpl; [reflexivity | now f_equal]. Qed.

Lemma filter_repeat_true {A : Type} (f : A -> bool) (x : A) n :
  f x = true -> List.filter f (repeat x n) = repeat x n.
Proof.
  intros Hx. induction n as [|n IH]; simpl; [reflexivity|].
  rewrite Hx, IH. reflexivity.
Qed.

(** Logging holds no call that schedules, sleeps, enqueues or sets the
    link check. *)
Lemma observational_quiet es :
  Forall (fun e => observational e = true) es ->
  scheduling es = [] /\ sleeps es = [] /\ enqueued es = [] /\
  link_check_modes es = [].
Proof.
  unfold scheduling, sleeps, enqueued, link_check_modes, calls_of.
  induction 1 as [|e es He _ IH]; simpl; [auto|].
  destruct IH as (IH1 & IH2 & IH3 & IH4).
  destruct e as [c|q z]; simpl in *; [|auto].
  destruct c; simpl in *; try discriminate; auto.
Qed.

(** ** The event reactor *)

Section Reactor.

Variable hw : platform.

(** Printing what came down returns, and only logs; the acknowledgment
    flag and the downlink length decide what is printed. *)
Lemma run_report_downlink (o : oracle) (h : list event) :
  exists es,
    run o (report_downlink hw) h = (Returned tt, es) /\
    Forall (fun e => observational e = true) es.
Proof.
  unfold report_downlink. cbn [run bind perform read].
  destruct (negb (Z.land (u8 (o _ LMIC_txrxFlags)) (TXRX_ACK hw) =? 0));
    cbn [run bind perform read when];
    match goal with
    | |- context [negb (u8 (o ?h' LMIC_dataLen) =? 0)] =>
        destruct (negb (u8 (o h' LMIC_dataLen) =? 0))
    end;
    cbn [run bind perform read when];
    (eexists; split; [reflexivity | repeat constructor]).
Qed.

(** Sleeping and re-arming returns: five lines of log, one chunk sleep
    for each of [times], then the clock is read and the callback set
    [rest] seconds after it. *)
Lemma run_duty_cycle (o : oracle) (h : list event) (interval : Z)
      (g : globals) :
  exists logs now,
    run o (duty_cycle hw interval g) h =
    (Returned {| payload := payload g;
                 times := fst (decompose interval);
                 rest := snd (decompose interval) |},
     logs ++ repeat (Did chunk_sleep) (Z.to_nat (fst (decompose interval))) ++
     [Asked os_getTime now;
      Did (os_setTimedCallback sendjob
             (s32 (s32 now + sec2osticks hw (snd (decompose interval))))
             cb_do_send)]) /\
    Forall (fun e => observational e = true) logs.
Proof.
  unfold duty_cycle.
  destruct (decompose interval) as [t r]. cbn [fst snd].
  exists [Did (Serial_print (Str "Sleeping "));
          Did (Serial_print (Num t));
          Did (Serial_print (Str " of 8 seconds. Rest: "));
          Did (Serial_println (Num r));
          Did Serial_flush].
  eexists. split; [|repeat constructor].
  cbn [run bind perform read].
  rewrite run_bind, run_repeat_times.
  cbn [run bind perform read app]. reflexivity.
Qed.

(** The whole [EV_TXCOMPLETE] case. *)
Lemma run_tx_complete (o : oracle) (h : list event) (interval : Z)
      (g : globals) :
  exists logs now,
    run o (onEvent_every hw interval EV_TXCOMPLETE g) h =
    (Returned {| payload := payload g;
                 times := fst (decompose interval);
                 rest := snd (decompose interval) |},
     logs ++ repeat (Did chunk_sleep) (Z.to_nat (fst (decompose interval))) ++
     [Asked os_getTime now;
      Did (os_setTimedCallback sendjob
             (s32 (s32 now + sec2osticks hw (snd (decompose interval))))
             cb_do_send)]) /\
    Forall (fun e => observational e = true) logs.
Proof.
  unfold onEvent_every, tx_complete. cbn [run bind perform read].
  match goal with
  | |- context [run o (bind _ _) ?h'] => set (h1 := h')
  end.
  destruct (run_report_downlink o h1) as (es1 & Hr & Hobs1).
  destruct (run_duty_cycle o (h1 ++ es1) interval g)
    as (logs & now & Hd & Hobs2).
  rewrite (run_bind_returned _ _ _ _ _ _ _ _ Hr Hd).
  exists (Asked os_getTime (o h os_getTime)
          :: Did (Serial_print (Num (s32 (o h os_getTime))))
          :: Did (Serial_print (Str ": ")) :: es1 ++ logs), now.
  split.
  - cbn [app]. rewrite <- app_assoc. reflexivity.
  - repeat (constructor; [reflexivity|]). apply Forall_app. split; assumption.
Qed.

(** Every case but [EV_TXCOMPLETE] and [EV_JOINED] prints one line. *)
Lemma run_log_only_cases (o : oracle) (h : list event) (interval : Z)
      (ev : ev_t) (g : globals) :
  ev <> EV_TXCOMPLETE -> ev <> EV_JOINED ->
  exists name,
    run o (onEvent_every hw interval ev g) h =
    (Returned g,
     [Asked os_getTime (o h os_getTime);
      Did (Serial_print (Num (s32 (o h os_getTime))));
      Did (Serial_print (Str ": "));
      Did (Serial_println (Str name))]).
Proof.
  intros Htx Hj. destruct ev; try congruence; eexists; reflexivity.
Qed.

(** C1: for every interval an [unsigned] holds, and the chunk of 8
    seconds, the decomposition is [whole = interval div 8] and
    [remainder = interval mod 8], these satisfy
    [whole * 8 + remainder = interval], and they are what [onEvent]
    leaves in [times] and [rest] on [EV_TXCOMPLETE]. *)
Theorem decomposition_div_mod (interval : Z) :
  0 <= interval < 65536 ->
  decompose interval = (interval / 8, interval mod 8) /\
  fst (decompose interval) * 8 + snd (decompose interval) = interval /\
  forall o h g,
    exists g' es,
      run o (onEvent_every hw interval EV_TXCOMPLETE g) h = (Returned g', es) /\
      times g' = interval / 8 /\ rest g' = interval mod 8 /\
      times g' * 8 + rest g' = interval.
Proof.
  intros Hrange.
  pose proof (decompose_in_range interval Hrange) as Hd.
  pose proof (Z.div_mod interval 8 ltac:(lia)) as Hdm.
  split; [exact Hd|]. rewrite Hd. cbn [fst snd]. split; [lia|].
  intros o h g.
  destruct (run_tx_complete o h interval g) as (logs & now & Hrun & _).
  rewrite Hd in Hrun. cbn [fst snd] in Hrun.
  eexists. eexists. split; [exact Hrun|]. cbn [times rest]. lia.
Qed.

(** C3, amended: on [EV_TXCOMPLETE] the reactor returns after exactly
    [interval div 8] blocking sleeps of one chunk and no other blocking
    sleep; it then reads the clock and sets the callback of [do_send]
    at that time plus [sec2osticks (interval mod 8)], so the remainder
    is waited for by the timed callback. *)
Theorem duty_cycle_sleeps_whole_chunks_then_rearms
        (interval : Z) (o : oracle) (h : list event) (g : globals) :
  0 <= interval < 65536 ->
  exists es before now,
    run o (onEvent_every hw interval EV_TXCOMPLETE g) h =
      (Returned {| payload := payload g;
                   times := interval / 8;
                   rest := interval mod 8 |}, es) /\
    sleeps es = repeat chunk_sleep (Z.to_nat (interval / 8)) /\
    scheduling es =
      repeat chunk_sleep (Z.to_nat (interval / 8)) ++
      [os_setTimedCallback sendjob
         (s32 (s32 now + sec2osticks hw (interval mod 8))) cb_do_send] /\
    es = before ++
         [Asked os_getTime now;
          Did (os_setTimedCallback sendjob
                 (s32 (s32 now + sec2osticks hw (interval mod 8)))
                 cb_do_send)].
Proof.
  intros Hrange.
  destruct (run_tx_complete o h interval g) as (logs & now & Hrun & Hobs).
  rewrite (decompose_in_range interval Hrange) in Hrun. cbn [fst snd] in Hrun.
  destruct (observational_quiet logs Hobs) as (Hsched & Hsleep & _ & _).
  eexists. exists (logs ++ repeat (Did chunk_sleep) (Z.to_nat (interval / 8))).
  exists now.
  split; [exact Hrun|].
  unfold sleeps, scheduling in *.
  rewrite !calls_of_app, !List.filter_app, Hsleep, Hsched, calls_of_repeat_Did.
  rewrite !filter_repeat_true by reflexivity.
  cbn. rewrite app_nil_r, <- app_assoc. auto.
Qed.

(** C4: on [EV_TXCOMPLETE], whatever the acknowledgment flag and the
    downlink length read, the reactor returns after the chunk sleeps
    and the setting of the callback of [do_send]; before them it only
    logs, and the flag and the length reach nothing but the log. *)
Theorem tx_complete_reschedules_whatever_came_down
        (interval : Z) (o : oracle) (h : list event) (g : globals) :
  exists logs now,
    run o (onEvent_every hw interval EV_TXCOMPLETE g) h =
      (Returned {| payload := payload g;
                   times := fst (decompose interval);
                   rest := snd (decompose interval) |},
       logs ++
       repeat (Did chunk_sleep) (Z.to_nat (fst (decompose interval))) ++
       [Asked os_getTime now;
        Did (os_setTimedCallback sendjob
               (s32 (s32 now + sec2osticks hw (snd (decompose interval))))
               cb_do_send)]) /\
    Forall (fun e => observational e = true) logs /\
    scheduling logs = [].
Proof.
  destruct (run_tx_complete o h interval g) as (logs & now & Hrun & Hobs).
  exists logs, now. split; [exact Hrun|]. split; [exact Hobs|].
  apply observational_quiet, Hobs.
Qed.

(** C7: on [EV_JOINED] the reactor returns with its variables as they
    were, having called [LMIC_setLinkCheckMode] once, with 0, and
    having made no sleep and set no timed callback. *)
Theorem joined_disables_link_check_once
        (interval : Z) (o : oracle) (h : list event) (g : globals) :
  exists es,
    run o (onEvent_every hw interval EV_JOINED g) h = (Returned g, es) /\
    link_check_modes es = [0] /\
    scheduling es = [].
Proof. eexists. split; [reflexivity|]. split; reflexivity. Qed.

(** C8: for every event but [EV_TXCOMPLETE] and [EV_JOINED], unknown
    tags among them, the reactor returns with its variables as they
    were and has only logged; so do two invocations in a row. *)
Theorem other_events_only_log
        (interval : Z) (ev ev' : ev_t) (o : oracle) (h : list event)
        (g : globals) :
  ev <> EV_TXCOMPLETE -> ev <> EV_JOINED ->
  ev' <> EV_TXCOMPLETE -> ev' <> EV_JOINED ->
  (exists es,
      run o (onEvent_every hw interval ev g) h = (Returned g, es) /\
      Forall (fun e => observational e = true) es /\
      scheduling es = [] /\ enqueued es = [] /\ link_check_modes es = []) /\
  (exists es,
      run o (g1 <- onEvent_every hw interval ev g ;;
             onEvent_every hw interval ev' g1) h = (Returned g, es) /\
      Forall (fun e => observational e = true) es /\
      scheduling es = [] /\ enqueued es = [] /\ link_check_modes es = []).
Proof.
  intros Htx Hj Htx' Hj'.
  destruct (run_log_only_cases o h interval ev g Htx Hj) as (name & Hrun).
  assert (Hobs : forall (o' : oracle) h' n,
             Forall (fun e => observational e = true)
                    [Asked os_getTime (o' h' os_getTime);
                     Did (Serial_print (Num (s32 (o' h' os_getTime))));
                     Did (Serial_print (Str ": "));
                     Did (Serial_println (Str n))])
    by (intros; repeat constructor).
  split.
  - eexists. split; [exact Hrun|]. split; [apply Hobs|].
    repeat split; reflexivity.
  - match type of Hrun with _ = (_, ?es1) => set (es := es1) in * end.
    destruct (run_log_only_cases o (h ++ es) interval ev' g Htx' Hj')
      as (name' & Hrun').
    eexists. split; [exact (run_bind_returned _ _ _ _ _ _ _ _ Hrun Hrun')|].
    split; [apply Forall_app; split; apply Hobs|].
    repeat split; reflexivity.
Qed.

End Reactor.

(** ** The payload *)

(** The two bytes stored, and the cursor after them. *)
Lemma build_payload_bytes (buf : list Z) (mV : Z) :
  (2 <= length buf)%nat ->
  build_payload buf mV =
  ((mV / 2 ^ 8) mod 2 ^ 8 :: mV mod 2 ^ 8 :: drop 2 buf, 2).
Proof.
  intros Hlen. destruct buf as [|b0 [|b1 tl]]; simpl in Hlen; try lia.
  unfold build_payload. cbn [Z.to_nat Z.add Pos.to_nat Pos.iter_op Nat.add].
  cbn [insert list_insert drop]. unfold u8.
  change 255 with (Z.ones 8).
  rewrite !Z.land_ones, Z.shiftr_div_pow2, !Z.mod_mod by lia.
  reflexivity.
Qed.

(** The stores leave every index from 2 on as it was. *)
Lemma build_payload_frame (buf : list Z) (mV : Z) (k : nat) :
  (2 <= k)%nat -> fst (build_payload buf mV) !! k = buf !! k.
Proof.
  intros Hk. unfold build_payload. cbn [fst].
  rewrite !list_lookup_insert_ne by (cbn; lia). reflexivity.
Qed.

Lemma build_payload_length (buf : list Z) (mV : Z) :
  length (fst (build_payload buf mV)) = length buf.
Proof. unfold build_payload. cbn [fst]. now rewrite !length_insert. Qed.

(** The two bytes read back are the reading modulo [2 ^ 16]. *)
Lemma transmitted_mod (buf : list Z) (mV : Z) :
  (2 <= length buf)%nat ->
  transmitted_mV (fst (build_payload buf mV)) = mV mod 2 ^ 16.
Proof.
  intros Hlen. rewrite build_payload_bytes by exact Hlen.
  cbn [fst transmitted_mV].
  change (2 ^ 16) with (2 ^ 8 * 2 ^ 8).
  rewrite Z.rem_mul_r by lia. lia.
Qed.

(** C5: the payload builder writes the high byte of the reading at
    index 0 and the low byte at index 1 and leaves the cursor at 2,
    whatever the buffer held before; 3700 mV gives [0x0E, 0x74]. *)
Theorem build_payload_big_endian (buf buf' : list Z) (mV : Z) :
  length buf = 20%nat -> length buf' = 20%nat ->
  fst (build_payload buf mV) !! 0%nat = Some ((mV / 2 ^ 8) mod 2 ^ 8) /\
  fst (build_payload buf mV) !! 1%nat = Some (mV mod 2 ^ 8) /\
  snd (build_payload buf mV) = 2 /\
  take 2 (fst (build_payload buf mV)) = take 2 (fst (build_payload buf' mV)) /\
  take 2 (fst (build_payload buf 3700)) = [14; 116].
Proof.
  intros Hlen Hlen'.
  rewrite !build_payload_bytes by lia.
  repeat split; reflexivity.
Qed.

(** ** The battery sampler *)

Section Sampler.

Variable hw : platform.

Lemma wait_conversion_touches_adc (o : oracle) :
  forall fuel h r es,
    run o (wait_conversion hw fuel) h = (r, es) ->
    Forall (fun e => touches_adc e = true) es.
Proof.
  induction fuel as [|fuel IH]; intros h r es Hrun.
  - injection Hrun as _ <-. constructor.
  - cbn [wait_conversion run bind read] in Hrun.
    destruct (negb (Z.land (u8 (o h read_ADCSRA)) (_BV (ADSC hw)) =? 0)).
    + destruct (run o (wait_conversion hw fuel)
                    (h ++ [Asked read_ADCSRA (o h read_ADCSRA)]))
        as [r' es'] eqn:Hrest.
      injection Hrun as _ <-.
      constructor; [reflexivity | exact (IH _ _ _ Hrest)].
    + injection Hrun as _ <-. repeat constructor.
Qed.

Lemma measure_touches_adc (o : oracle) (fuel : nat) h r es :
  run o (measure hw fuel) h = (r, es) ->
  Forall (fun e => touches_adc e = true) es.
Proof.
  unfold measure. cbn [run bind perform read].
  match goal with
  | |- context [run o (wait_conversion hw fuel) ?h'] =>
      destruct (run o (wait_conversion hw fuel) h') as [r' es'] eqn:Hw
  end.
  intros Hrun. injection Hrun as _ <-.
  repeat (constructor; [reflexivity|]).
  exact (wait_conversion_touches_adc _ _ _ _ _ Hw).
Qed.

(** Once the conversion has ended, [readVcc] reads the two registers
    and divides. *)
Lemma run_readVcc (o : oracle) (fuel : nat) h es :
  run o (measure hw fuel) h = (Returned tt, es) ->
  run o (readVcc hw fuel) h =
  let low := o (h ++ es) read_ADCL in
  let high := o ((h ++ es) ++ [Asked read_ADCL low]) read_ADCH in
  (if adc_result (u8 low) (u8 high) =? 0
   then Crashed
   else Returned (Z.quot 1125300 (adc_result (u8 low) (u8 high))),
   es ++ [Asked read_ADCL low; Asked read_ADCH high]).
Proof.
  intros Hm. unfold readVcc. rewrite run_bind, Hm.
  cbn [run bind read]. unfold vcc_of_adc.
  destruct (adc_result _ _ =? 0); reflexivity.
Qed.

(** [readVcc] touches nothing but the converter. *)
Lemma readVcc_touches_adc (o : oracle) (fuel : nat) h r es :
  run o (readVcc hw fuel) h = (r, es) ->
  Forall (fun e => touches_adc e = true) es.
Proof.
  destruct (run o (measure hw fuel) h) as [[[]| |] es0] eqn:Hm.
  - rewrite (run_readVcc _ _ _ _ Hm). cbn zeta.
    intros Hrun. injection Hrun as _ <-.
    apply Forall_app. split; [exact (measure_touches_adc _ _ _ _ _ Hm)|].
    repeat constructor.
  - unfold readVcc. rewrite run_bind, Hm.
    intros Hrun. injection Hrun as _ <-.
    exact (measure_touches_adc _ _ _ _ _ Hm).
  - unfold readVcc. rewrite run_bind, Hm.
    intros Hrun. injection Hrun as _ <-.
    exact (measure_touches_adc _ _ _ _ _ Hm).
Qed.

(** What [readVcc] returns is a quotient of 1125300 by a nonzero
    divisor. *)
Lemma readVcc_returned_inv (o : oracle) (fuel : nat) h mV es :
  run o (readVcc hw fuel) h = (Returned mV, es) ->
  exists low high,
    adc_result low high <> 0 /\ mV = Z.quot 1125300 (adc_result low high).
Proof.
  destruct (run o (measure hw fuel) h) as [[[]| |] es0] eqn:Hm.
  - rewrite (run_readVcc _ _ _ _ Hm). cbn zeta.
    destruct (adc_result _ _ =? 0) eqn:Hz; [discriminate|].
    intros Hrun. injection Hrun as <- _.
    eexists. eexists. split; [|reflexivity].
    apply Z.eqb_neq, Hz.
  - unfold readVcc. rewrite run_bind, Hm. discriminate.
  - unfold readVcc. rewrite run_bind, Hm. discriminate.
Qed.

(** A larger polling budget does not change a run that ended within
    the smaller one. *)
Lemma wait_conversion_more_fuel (o : oracle) :
  forall fuel fuel' h es,
    run o (wait_conversion hw fuel) h = (Returned tt, es) ->
    (fuel <= fuel')%nat ->
    run o (wait_conversion hw fuel') h = (Returned tt, es).
Proof.
  induction fuel as [|fuel IH]; intros fuel' h es Hrun Hle.
  - discriminate Hrun.
  - destruct fuel' as [|fuel']; [lia|].
    cbn [wait_conversion run bind read] in Hrun |- *.
    destruct (negb (Z.land (u8 (o h read_ADCSRA)) (_BV (ADSC hw)) =? 0));
      [|exact Hrun].
    destruct (run o (wait_conversion hw fuel)
                  (h ++ [Asked read_ADCSRA (o h read_ADCSRA)]))
      as [[[]| |] es'] eqn:Hrest; try discriminate Hrun.
    rewrite (IH fuel' _ _ Hrest) by lia. exact Hrun.
Qed.

Lemma measure_more_fuel (o : oracle) (fuel fuel' : nat) h es :
  run o (measure hw fuel) h = (Returned tt, es) ->
  (fuel <= fuel')%nat ->
  run o (measure hw fuel') h = (Returned tt, es).
Proof.
  unfold measure. cbn [run bind perform read].
  match goal with
  | |- context [run o (wait_conversion hw fuel) ?h'] =>
      destruct (run o (wait_conversion hw fuel) h') as [[[]| |] es'] eqn:Hw
  end; intros Hrun Hle; try discriminate Hrun.
  rewrite (wait_conversion_more_fuel _ _ _ _ _ Hw Hle). exact Hrun.
Qed.

Lemma readVcc_more_fuel (o : oracle) (fuel fuel' : nat) h mV es :
  run o (readVcc hw fuel) h = (Returned mV, es) ->
  (fuel <= fuel')%nat ->
  run o (readVcc hw fuel') h = (Returned mV, es).
Proof.
  intros Hrun Hle.
  destruct (run o (measure hw fuel) h) as [[[]| |] es0] eqn:Hm.
  - rewrite (run_readVcc _ _ _ _ (measure_more_fuel _ _ _ _ _ Hm Hle)).
    rewrite (run_readVcc _ _ _ _ Hm) in Hrun. exact Hrun.
  - unfold readVcc in Hrun. rewrite run_bind, Hm in Hrun. discriminate.
  - unfold readVcc in Hrun. rewrite run_bind, Hm in Hrun. discriminate.
Qed.

(** A converter that is ready at the first poll ends the wait. *)
Lemma measure_returns_when_ready (o : oracle) (fuel : nat) h :
  (forall h', Z.land (u8 (o h' read_ADCSRA)) (_BV (ADSC hw)) = 0) ->
  exists es, run o (measure hw (S fuel)) h = (Returned tt, es).
Proof.
  intros Hready. unfold measure.
  cbn [wait_conversion run bind perform read].
  rewrite Hready. cbn [Z.eqb negb run]. eexists. reflexivity.
Qed.

Lemma quot_1125300_bound (d : Z) :
  d <> 0 -> - 1125300 <= Z.quot 1125300 d <= 1125300.
Proof.
  intros Hd.
  pose proof (Z.quot_rem' 1125300 d) as Hqr.
  pose proof (Z.rem_bound_pos 1125300 d) as Hpos.
  pose proof (Z.rem_bound_pos 1125300 (- d)) as Hneg.
  rewrite Z.rem_opp_r in Hneg by exact Hd.
  destruct (Z.lt_trichotomy d 0) as [Hlt|[Heq|Hgt]]; [|congruence|]; nia.
Qed.

End Sampler.

(** ** The sampler's division and the uplink submitter *)

Section Submitter.

Variable hw : platform.

(** C9: once the conversion has ended, [readVcc] returns
    [1125300 / result] for the [result] read from [ADCL] and [ADCH],
    with no guard: it returns exactly when [result] is not zero, and
    when both registers read 0 the division is by zero. *)
Theorem readVcc_divides_unguarded (o : oracle) (fuel : nat)
        (h es : list event) :
  run o (measure hw fuel) h = (Returned tt, es) ->
  let low := u8 (o (h ++ es) read_ADCL) in
  let high :=
    u8 (o ((h ++ es) ++ [Asked read_ADCL (o (h ++ es) read_ADCL)]) read_ADCH) in
  let result := adc_result low high in
  (result <> 0 ->
   fst (run o (readVcc hw fuel) h) = Returned (Z.quot 1125300 result)) /\
  (result = 0 -> fst (run o (readVcc hw fuel) h) = Crashed) /\
  (low = 0 -> high = 0 -> fst (run o (readVcc hw fuel) h) = Crashed) /\
  ((exists mV, fst (run o (readVcc hw fuel) h) = Returned mV) <->
   result <> 0).
Proof.
  intros Hm low high result.
  rewrite (run_readVcc _ _ _ _ _ Hm). cbn zeta. cbn [fst].
  fold low high result.
  destruct (result =? 0) eqn:Hz.
  - apply Z.eqb_eq in Hz. repeat split; try congruence.
    intros [mV HmV]. discriminate.
  - apply Z.eqb_neq in Hz. repeat split; try congruence.
    + intros Hl Hh. exfalso. apply Hz. subst result. rewrite Hl, Hh.
      reflexivity.
    + intros _. eexists. reflexivity.
Qed.

(** C10: the two bytes carry the reading modulo [2 ^ 16], so a reading
    of 65536 mV or more is not the value transmitted, and the value
    transmitted is the reading exactly when the reading is in
    [0, 65536); [readVcc] does return 1125300 (the registers reading 1),
    and never more. *)
Theorem payload_keeps_low_16_bits (buf : list Z) (mV : Z) :
  length buf = 20%nat ->
  transmitted_mV (fst (build_payload buf mV)) = mV mod 2 ^ 16 /\
  (65536 <= mV -> transmitted_mV (fst (build_payload buf mV)) <> mV) /\
  (transmitted_mV (fst (build_payload buf mV)) = mV <-> 0 <= mV < 65536) /\
  (forall h, fst (run (idle_with_adc 1 0) (readVcc hw 1) h)
             = Returned 1125300) /\
  (forall o fuel h v es,
      run o (readVcc hw fuel) h = (Returned v, es) -> v <= 1125300).
Proof.
  intros Hlen.
  rewrite transmitted_mod by lia.
  pose proof (Z.mod_pos_bound mV (2 ^ 16) ltac:(lia)) as Hb.
  change (2 ^ 16) with 65536 in *.
  split; [reflexivity|]. split; [lia|]. split.
  - split; [lia | intros Hr; apply Z.mod_small, Hr].
  - split.
    + intros h. reflexivity.
    + intros o fuel h v es Hrun.
      destruct (readVcc_returned_inv _ _ _ _ _ _ Hrun) as (l & hi & Hnz & ->).
      apply quot_1125300_bound, Hnz.
Qed.

(** With a transmission pending, [do_send] reads the flag, prints one
    line and returns. *)
Lemma run_do_send_pending (o : oracle) (fuel : nat) (h : list event)
      (g : globals) :
  Z.land (u16 (o h LMIC_opmode)) (OP_TXRXPEND hw) <> 0 ->
  run o (do_send hw fuel g) h =
  (Returned g,
   [Asked LMIC_opmode (o h LMIC_opmode);
    Did (Serial_println (Str "OP_TXRXPEND, not sending"))]).
Proof.
  intros Hp. apply Z.eqb_neq in Hp.
  unfold do_send. cbn [run bind perform read]. rewrite Hp. reflexivity.
Qed.

(** With none pending and a reading returned by [readVcc], [do_send]
    stores the reading, hands the buffer over and prints one line. *)
Lemma run_do_send_free (o : oracle) (fuel : nat) (h es : list event)
      (g : globals) (mV : Z) :
  Z.land (u16 (o h LMIC_opmode)) (OP_TXRXPEND hw) = 0 ->
  run o (readVcc hw fuel) (h ++ [Asked LMIC_opmode (o h LMIC_opmode)])
    = (Returned mV, es) ->
  run o (do_send hw fuel g) h =
  (Returned {| payload := fst (build_payload (payload g) mV);
               times := times g; rest := rest g |},
   Asked LMIC_opmode (o h LMIC_opmode) :: es ++
   [Did (LMIC_setTxData2 1 (fst (build_payload (payload g) mV)) 2 0);
    Did (Serial_println (Str "Packet queued"))]).
Proof.
  intros Hp Hv. apply Z.eqb_eq in Hp.
  unfold do_send. cbn [run bind perform read]. rewrite Hp. cbn [negb].
  rewrite run_bind, Hv. reflexivity.
Qed.

(** C2: with the pending flag set, [do_send] returns with the payload
    buffer and the other variables as they were, has not touched the
    converter and has made no call of [LMIC_setTxData2]; it has only
    logged. *)
Theorem do_send_pending_is_noop (o : oracle) (fuel : nat) (h : list event)
        (g : globals) :
  Z.land (u16 (o h LMIC_opmode)) (OP_TXRXPEND hw) <> 0 ->
  exists g' es,
    run o (do_send hw fuel g) h = (Returned g', es) /\
    g' = g /\
    (forall k : nat, payload g' !! k = payload g !! k) /\
    Forall (fun e => touches_adc e = false) es /\
    enqueued es = [] /\
    Forall (fun e => observational e = true) es.
Proof.
  intros Hp. eexists. eexists.
  split; [exact (run_do_send_pending o fuel h g Hp)|].
  repeat split; repeat constructor.
Qed.

(** C6: with no transmission pending and a reading returned by
    [readVcc], [do_send] returns after exactly one call of
    [LMIC_setTxData2], on port 1, with the buffer, the length 2 and no
    confirmation; the buffer from index 2 on, [times] and [rest] are as
    they were. *)
Theorem do_send_hands_over_two_bytes (o : oracle) (fuel : nat)
        (h es : list event) (g : globals) (mV : Z) :
  Z.land (u16 (o h LMIC_opmode)) (OP_TXRXPEND hw) = 0 ->
  run o (readVcc hw fuel) (h ++ [Asked LMIC_opmode (o h LMIC_opmode)])
    = (Returned mV, es) ->
  exists g' es',
    run o (do_send hw fuel g) h = (Returned g', es') /\
    enqueued es' = [LMIC_setTxData2 1 (payload g') 2 0] /\
    (forall k : nat, (2 <= k)%nat -> payload g' !! k = payload g !! k) /\
    length (payload g') = length (payload g) /\
    times g' = times g /\ rest g' = rest g.
Proof.
  intros Hp Hv. eexists. eexists.
  split; [exact (run_do_send_free o fuel h es g mV Hp Hv)|].
  cbn [payload times rest].
  split; [|split; [|split; [|split]]]; try reflexivity.
  - pose proof (readVcc_touches_adc _ _ _ _ _ _ Hv) as Hadc.
    unfold enqueued. cbn [calls_of omap list_omap].
    fold calls_of. rewrite calls_of_app, List.filter_app.
    replace (List.filter is_enqueue (calls_of es)) with (@nil call).
    + reflexivity.
    + symmetry. clear Hv. induction Hadc as [|e es' He _ IH]; [reflexivity|].
      destruct e as [c|q z]; cbn in *; [|exact IH].
      destruct c; cbn in *; try discriminate; exact IH.
  - intros k Hk. apply build_payload_frame, Hk.
  - apply build_payload_length.
Qed.

End Submitter.

(** ** The theorems at work on the board of the examples *)

(** An interval of 20 seconds is two chunks and four seconds. *)
Lemma decomposition_div_mod_at_20 :
  0 <= 20 < 65536 /\ decompose 20 = (2, 4) /\ 2 * 8 + 4 = 20.
Proof.
  assert (Hrange : 0 <= 20 < 65536) by lia.
  destruct (decomposition_div_mod atmega328p 20 Hrange) as (Hd & Hs & _).
  split; [exact Hrange|]. split; [exact Hd | exact Hs].
Defined.

(** The sketch's own interval: two chunk sleeps, then the callback is
    set four seconds (250000 ticks) after the clock's reading. *)
Lemma duty_cycle_at_20 :
  exists es now,
    run (idle_with_adc 0 0) (onEvent atmega328p EV_TXCOMPLETE initial) [] =
      (Returned {| payload := payload initial; times := 2; rest := 4 |}, es) /\
    sleeps es = [chunk_sleep; chunk_sleep] /\
    scheduling es =
      [chunk_sleep; chunk_sleep;
       os_setTimedCallback sendjob (s32 (s32 now + 250000)) cb_do_send].
Proof.
  assert (Hrange : 0 <= 20 < 65536) by lia.
  destruct (duty_cycle_sleeps_whole_chunks_then_rearms
              atmega328p 20 (idle_with_adc 0 0) [] initial Hrange)
    as (es & before & now & Hrun & Hs & Hsch & _).
  exists es, now. split; [exact Hrun|]. split; [exact Hs | exact Hsch].
Defined.

(** At the sketch's own interval the reactor does not sleep as the
    specification's contract words it: after the two chunk sleeps there
    is no blocking sleep of the four remaining seconds. *)
Lemma no_remainder_sleep_at_20 :
  ~ sleeps_as_specified TX_INTERVAL
      (snd (run (idle_with_adc 0 0)
                (onEvent atmega328p EV_TXCOMPLETE initial) [])).
Proof.
  intros (remainder_sleep & Hs & Hl).
  vm_compute in Hs. injection Hs as <-.
  vm_compute in Hl. discriminate Hl.
Qed.

(** An unknown tag, twice. *)
Lemma unknown_event_twice_only_logs :
  exists es,
    run busy (g1 <- onEvent atmega328p (EV_unknown 99) initial ;;
              onEvent atmega328p (EV_unknown 99) g1) [] =
      (Returned initial, es) /\
    scheduling es = [].
Proof.
  assert (Htx : EV_unknown 99 <> EV_TXCOMPLETE) by discriminate.
  assert (Hj : EV_unknown 99 <> EV_JOINED) by discriminate.
  destruct (other_events_only_log atmega328p TX_INTERVAL
              (EV_unknown 99) (EV_unknown 99) busy [] initial Htx Hj Htx Hj)
    as (_ & es & Hrun & _ & Hs & _).
  exists es. split; [exact Hrun | exact Hs].
Defined.

(** A submission while a transmission is pending. *)
Lemma do_send_pending_at_busy :
  Z.land (u16 (busy [] LMIC_opmode)) (OP_TXRXPEND atmega328p) <> 0 /\
  exists es,
    run busy (do_send atmega328p 1 initial) [] = (Returned initial, es) /\
    enqueued es = [].
Proof.
  assert (Hp : Z.land (u16 (busy [] LMIC_opmode)) (OP_TXRXPEND atmega328p) <> 0)
    by (vm_compute; discriminate).
  split; [exact Hp|].
  destruct (do_send_pending_is_noop atmega328p busy 1 [] initial Hp)
    as (g' & es & Hrun & -> & _ & _ & He & _).
  exists es. split; [exact Hrun | exact He].
Defined.

(** 3700 mV in the buffer as the program starts. *)
Lemma build_payload_at_3700 :
  length (payload initial) = 20%nat /\
  take 2 (fst (build_payload (payload initial) 3700)) = [14; 116].
Proof.
  assert (Hlen : length (payload initial) = 20%nat) by reflexivity.
  split; [exact Hlen|].
  destruct (build_payload_big_endian (payload initial) (payload initial) 3700
              Hlen Hlen) as (_ & _ & _ & _ & Hb).
  exact Hb.
Defined.

(** A submission with the registers reading 304, that is 3701 mV. *)
Lemma do_send_at_3701 :
  exists g' es,
    run (idle_with_adc 48 1) (do_send atmega328p 1 initial) [] =
      (Returned g', es) /\
    enqueued es = [LMIC_setTxData2 1 (payload g') 2 0] /\
    forall k : nat, (2 <= k)%nat -> payload g' !! k = payload initial !! k.
Proof.
  assert (Hp : Z.land (u16 (idle_with_adc 48 1 [] LMIC_opmode))
                      (OP_TXRXPEND atmega328p) = 0) by reflexivity.
  assert (Hv : run (idle_with_adc 48 1) (readVcc atmega328p 1)
                   ([] ++ [Asked LMIC_opmode
                             (idle_with_adc 48 1 [] LMIC_opmode)]) =
               (Returned 3701,
                [Did (write_ADMUX 78); Did (delay 2); Asked read_ADCSRA 0;
                 Did (write_ADCSRA 64); Asked read_ADCSRA 0;
                 Asked read_ADCL 48; Asked read_ADCH 1]))
    by (vm_compute; reflexivity).
  destruct (do_send_hands_over_two_bytes atmega328p (idle_with_adc 48 1) 1
              [] _ initial 3701 Hp Hv)
    as (g' & es' & Hrun & He & Hframe & _).
  exists g', es'. split; [exact Hrun|]. split; [exact He | exact Hframe].
Defined.

(** Both registers reading 0: the division is by zero. *)
Lemma readVcc_at_zero :
  fst (run (idle_with_adc 0 0) (readVcc atmega328p 1) []) = Crashed.
Proof.
  assert (Hm : run (idle_with_adc 0 0) (measure atmega328p 1) [] =
               (Returned tt,
                [Did (write_ADMUX 78); Did (delay 2); Asked read_ADCSRA 0;
                 Did (write_ADCSRA 64); Asked read_ADCSRA 0]))
    by (vm_compute; reflexivity).
  destruct (readVcc_divides_unguarded atmega328p (idle_with_adc 0 0) 1 [] _ Hm)
    as (_ & _ & Hzero & _).
  apply Hzero; reflexivity.
Defined.

(** A reading of 70000 mV is transmitted as 4464. *)
Lemma payload_at_70000 :
  length (payload initial) = 20%nat /\
  transmitted_mV (fst (build_payload (payload initial) 70000)) = 4464.
Proof.
  assert (Hlen : length (payload initial) = 20%nat) by reflexivity.
  split; [exact Hlen|].
  destruct (payload_keeps_low_16_bits atmega328p (payload initial) 70000 Hlen)
    as (Ht & _).
  exact Ht.
Defined.

(** ** More on the event reactor *)

Lemma filter_repeat_false {A : Type} (f : A -> bool) (x : A) n :
  f x = false -> List.filter f (repeat x n) = [].
Proof.
  intros Hx. induction n as [|n IH]; simpl; [reflexivity|].
  rewrite Hx. exact IH.
Qed.

Lemma observational_not_adc es :
  Forall (fun e => observational e = true) es ->
  Forall (fun e => touches_adc e = false) es.
Proof.
  induction 1 as [|[c|q z] l He _ IH]; constructor; try exact IH.
  - destruct c; simpl in *; congruence.
  - destruct q; simpl in *; congruence.
Qed.

Lemma Forall_repeat {A : Type} (P : A -> Prop) (x : A) n :
  P x -> Forall P (repeat x n).
Proof. intros Hx. induction n; simpl; constructor; assumption. Qed.

Section ReactorMore.

Variable hw : platform.

(** What the [EV_TXCOMPLETE] run is made of. *)
Lemma tx_complete_trace_facts (logs : list event) (n : nat) (now t : Z) :
  Forall (fun e => observational e = true) logs ->
  let es := logs ++ repeat (Did chunk_sleep) n ++
            [Asked os_getTime now;
             Did (os_setTimedCallback sendjob t cb_do_send)] in
  sleeps es = repeat chunk_sleep n /\
  callbacks es = [os_setTimedCallback sendjob t cb_do_send] /\
  enqueued es = [] /\
  link_check_modes es = [] /\
  Forall (fun e => touches_adc e = false) es.
Proof.
  intros Hobs es.
  destruct (observational_quiet logs Hobs) as (Hsched & Hsleep & Henq & Hlink).
  assert (Hcb : callbacks logs = []).
  { clear -Hobs. unfold callbacks, calls_of.
    induction Hobs as [|e l He _ IH]; [reflexivity|].
    destruct e as [c|q z]; simpl in *; [|exact IH].
    destruct c; simpl in *; try discriminate; exact IH. }
  assert (Hlr : link_check_modes (repeat (Did chunk_sleep) n) = [])
    by (induction n; simpl; auto).
  subst es. unfold sleeps, callbacks, enqueued in *.
  rewrite !calls_of_app, !List.filter_app, calls_of_repeat_Did.
  rewrite Hsleep, Hcb, Henq.
  rewrite filter_repeat_true by reflexivity.
  rewrite !filter_repeat_false by reflexivity.
  unfold link_check_modes in *. rewrite !omap_app, Hlink, Hlr.
  cbn. rewrite app_nil_r.
  repeat split; try reflexivity.
  apply Forall_app. split; [exact (observational_not_adc _ Hobs)|].
  apply Forall_app. split; [apply Forall_repeat; reflexivity|].
  repeat constructor.
Qed.

(** X1: whatever the event and whatever is read, [onEvent] returns; it
    leaves the payload buffer as it was, hands nothing to
    [LMIC_setTxData2] and does not touch the converter. *)
Theorem onEvent_returns_and_spares_payload
        (interval : Z) (ev : ev_t) (o : oracle) (h : list event)
        (g : globals) :
  exists es,
    run o (onEvent_every hw interval ev g) h =
      (Returned (after_event interval ev g), es) /\
    payload (after_event interval ev g) = payload g /\
    enqueued es = [] /\
    Forall (fun e => touches_adc e = false) es.
Proof.
  destruct ev;
    try (eexists; split; [reflexivity|]; split; [reflexivity|];
         split; [reflexivity | repeat constructor]).
  destruct (run_tx_complete hw o h interval g) as (logs & now & Hrun & Hobs).
  eexists. split; [exact Hrun|]. split; [reflexivity|].
  destruct (tx_complete_trace_facts logs
              (Z.to_nat (fst (decompose interval))) now
              (s32 (s32 now + sec2osticks hw (snd (decompose interval)))) Hobs)
    as (_ & _ & Henq & _ & Hadc).
  split; [exact Henq | exact Hadc].
Qed.

(** X2: a run of [onEvent] sets a timed callback exactly once on
    [EV_TXCOMPLETE] and never otherwise, sleeps on [EV_TXCOMPLETE]
    only, and calls [LMIC_setLinkCheckMode] (once, with 0) on
    [EV_JOINED] only. *)
Theorem only_tx_complete_schedules
        (interval : Z) (ev : ev_t) (o : oracle) (h : list event)
        (g : globals) :
  let es := snd (run o (onEvent_every hw interval ev g) h) in
  length (callbacks es) =
    match ev with EV_TXCOMPLETE => 1%nat | _ => 0%nat end /\
  sleeps es =
    match ev with
    | EV_TXCOMPLETE =>
        repeat chunk_sleep (Z.to_nat (fst (decompose interval)))
    | _ => []
    end /\
  link_check_modes es = match ev with EV_JOINED => [0] | _ => [] end.
Proof.
  destruct ev; try (repeat split; reflexivity).
  destruct (run_tx_complete hw o h interval g) as (logs & now & Hrun & Hobs).
  cbn zeta. rewrite Hrun. cbn [snd].
  destruct (tx_complete_trace_facts logs
              (Z.to_nat (fst (decompose interval))) now
              (s32 (s32 now + sec2osticks hw (snd (decompose interval)))) Hobs)
    as (Hs & Hcb & _ & Hl & _).
  rewrite Hs, Hcb, Hl. repeat split; reflexivity.
Qed.



End ReactorMore.

(** ** More on the sampler and the submitter *)

Lemma touches_adc_quiet es :
  Forall (fun e => touches_adc e = true) es -> enqueued es = [].
Proof.
  unfold enqueued, calls_of.
  induction 1 as [|[c|q z] l He _ IH]; [reflexivity| |exact IH].
  destruct c; simpl in *; try discriminate; exact IH.
Qed.

Lemma enqueued_Asked (q : query) (z : Z) (es : list event) :
  enqueued (Asked q z :: es) = enqueued es.
Proof. reflexivity. Qed.

Section SubmitterMore.

Variable hw : platform.

(** The wait only polls [ADCSRA]: it never crashes and reads no data
    register. *)
Lemma wait_conversion_facts (o : oracle) :
  forall fuel h r es,
    run o (wait_conversion hw fuel) h = (r, es) ->
    r <> Crashed /\ adc_data_reads es = [].
Proof.
  induction fuel as [|fuel IH]; intros h r es Hrun.
  - injection Hrun as <- <-. split; [discriminate | reflexivity].
  - cbn [wait_conversion run bind read] in Hrun.
    destruct (negb (Z.land (u8 (o h read_ADCSRA)) (_BV (ADSC hw)) =? 0)).
    + destruct (run o (wait_conversion hw fuel)
                    (h ++ [Asked read_ADCSRA (o h read_ADCSRA)]))
        as [r' es'] eqn:Hrest.
      injection Hrun as <- <-. exact (IH _ _ _ Hrest).
    + injection Hrun as <- <-. split; [discriminate | reflexivity].
Qed.

Lemma measure_facts (o : oracle) (fuel : nat) h r es :
  run o (measure hw fuel) h = (r, es) ->
  r <> Crashed /\ adc_data_reads es = [].
Proof.
  unfold measure. cbn [run bind perform read].
  match goal with
  | |- context [run o (wait_conversion hw fuel) ?h'] =>
      destruct (run o (wait_conversion hw fuel) h') as [r' es'] eqn:Hw
  end.
  intros Hrun. injection Hrun as <- <-.
  exact (wait_conversion_facts _ _ _ _ _ Hw).
Qed.

(** [readVcc] when the wait does not end. *)
Lemma run_readVcc_spinning (o : oracle) (fuel : nat) h es :
  run o (measure hw fuel) h = (Spinning, es) ->
  run o (readVcc hw fuel) h = (Spinning, es).
Proof. intros Hm. unfold readVcc. rewrite run_bind, Hm. reflexivity. Qed.

(** [do_send] with no transmission pending, from the run of [readVcc]. *)
Lemma run_do_send_via_readVcc (o : oracle) (fuel : nat) (h : list event)
      (g : globals) :
  Z.land (u16 (o h LMIC_opmode)) (OP_TXRXPEND hw) = 0 ->
  run o (do_send hw fuel g) h =
  match run o (readVcc hw fuel) (h ++ [Asked LMIC_opmode (o h LMIC_opmode)])
  with
  | (Returned mV, es) =>
      (Returned {| payload := fst (build_payload (payload g) mV);
                   times := times g; rest := rest g |},
       Asked LMIC_opmode (o h LMIC_opmode) :: es ++
       [Did (LMIC_setTxData2 1 (fst (build_payload (payload g) mV)) 2 0);
        Did (Serial_println (Str "Packet queued"))])
  | (Crashed, es) => (Crashed, Asked LMIC_opmode (o h LMIC_opmode) :: es)
  | (Spinning, es) => (Spinning, Asked LMIC_opmode (o h LMIC_opmode) :: es)
  end.
Proof.
  intros Hp.
  destruct (run o (readVcc hw fuel) (h ++ [Asked LMIC_opmode (o h LMIC_opmode)]))
    as [[mV| |] es] eqn:Hv.
  - exact (run_do_send_free hw o fuel h es g mV Hp Hv).
  - apply Z.eqb_eq in Hp. unfold do_send. cbn [run bind perform read].
    rewrite Hp. cbn [negb]. rewrite run_bind, Hv. reflexivity.
  - apply Z.eqb_eq in Hp. unfold do_send. cbn [run bind perform read].
    rewrite Hp. cbn [negb]. rewrite run_bind, Hv. reflexivity.
Qed.

Lemma enqueued_after_adc (q : query) (z : Z) (es : list event) (c : call)
      (x : printable) :
  Forall (fun e => touches_adc e = true) es ->
  is_enqueue c = true ->
  enqueued (Asked q z :: es ++ [Did c; Did (Serial_println x)]) = [c].
Proof.
  intros Hadc Hc. pose proof (touches_adc_quiet es Hadc) as Hq.
  unfold enqueued in *. cbn [calls_of omap list_omap]. fold calls_of.
  rewrite calls_of_app, List.filter_app, Hq. cbn. rewrite Hc. reflexivity.
Qed.

(** X5: every run of [do_send] hands a buffer to [LMIC_setTxData2] at
    most once; when it does, the pending flag had read clear, the call
    is on port 1 with length 2 and no confirmation, and [do_send]
    returns with that buffer as its payload. *)
Theorem do_send_enqueues_at_most_once
        (o : oracle) (fuel : nat) (h : list event) (g : globals) :
  let '(r, es) := run o (do_send hw fuel g) h in
  enqueued es = [] \/
  exists buf,
    enqueued es = [LMIC_setTxData2 1 buf 2 0] /\
    r = Returned {| payload := buf; times := times g; rest := rest g |} /\
    Z.land (u16 (o h LMIC_opmode)) (OP_TXRXPEND hw) = 0.
Proof.
  destruct (Z.eq_dec (Z.land (u16 (o h LMIC_opmode)) (OP_TXRXPEND hw)) 0)
    as [Hp|Hp].
  - rewrite (run_do_send_via_readVcc o fuel h g Hp).
    destruct (run o (readVcc hw fuel)
                  (h ++ [Asked LMIC_opmode (o h LMIC_opmode)]))
      as [[mV| |] es] eqn:Hv;
      pose proof (readVcc_touches_adc _ _ _ _ _ _ Hv) as Hadc.
    + right. eexists. split; [|split; [reflexivity | exact Hp]].
      apply enqueued_after_adc; [exact Hadc | reflexivity].
    + left. rewrite enqueued_Asked. exact (touches_adc_quiet es Hadc).
    + left. rewrite enqueued_Asked. exact (touches_adc_quiet es Hadc).
  - rewrite (run_do_send_pending hw o fuel h g Hp). left. reflexivity.
Qed.

(** X6: with no transmission pending and the conversion ended, a
    result of zero read from the registers makes [do_send] crash on
    the division of [readVcc], before anything is handed to
    [LMIC_setTxData2]. *)
Theorem do_send_crashes_on_zero_reading
        (o : oracle) (fuel : nat) (h es : list event) (g : globals) :
  Z.land (u16 (o h LMIC_opmode)) (OP_TXRXPEND hw) = 0 ->
  let h1 := h ++ [Asked LMIC_opmode (o h LMIC_opmode)] in
  run o (measure hw fuel) h1 = (Returned tt, es) ->
  let low := o (h1 ++ es) read_ADCL in
  let high := o ((h1 ++ es) ++ [Asked read_ADCL low]) read_ADCH in
  adc_result (u8 low) (u8 high) = 0 ->
  exists es',
    run o (do_send hw fuel g) h = (Crashed, es') /\
    enqueued es' = [] /\
    adc_data_reads es' = [read_ADCL; read_ADCH].
Proof.
  intros Hp h1 Hm low high Hz.
  rewrite (run_do_send_via_readVcc o fuel h g Hp).
  fold h1. pose proof (run_readVcc hw o fuel h1 es Hm) as Hv.
  cbn zeta in Hv. fold low high in Hv. rewrite Hz in Hv. cbn [Z.eqb] in Hv.
  rewrite Hv. eexists. split; [reflexivity|]. split.
  - rewrite enqueued_Asked.
    exact (touches_adc_quiet _ (readVcc_touches_adc _ _ _ _ _ _ Hv)).
  - destruct (measure_facts _ _ _ _ _ Hm) as [_ Hd].
    unfold adc_data_reads in *. cbn [omap list_omap].
    rewrite omap_app, Hd. reflexivity.
Qed.

(** X7: [readVcc] has no timeout.  If [ADCSRA] reads with [ADSC] set
    at every poll, then whatever the polling budget the wait uses it
    up, and [do_send], every poll made, has handed nothing to
    [LMIC_setTxData2]. *)
Theorem readVcc_has_no_timeout
        (o : oracle) (fuel : nat) (h : list event) (g : globals) :
  (forall h', Z.land (u8 (o h' read_ADCSRA)) (_BV (ADSC hw)) <> 0) ->
  Z.land (u16 (o h LMIC_opmode)) (OP_TXRXPEND hw) = 0 ->
  (exists es,
      run o (readVcc hw fuel) h = (Spinning, es) /\
      length es = (4 + fuel)%nat) /\
  (exists es,
      run o (do_send hw fuel g) h = (Spinning, es) /\
      enqueued es = []).
Proof.
  intros Hbusy Hp.
  assert (Hw : forall n h', run o (wait_conversion hw n) h' =
                            (Spinning,
                             snd (run o (wait_conversion hw n) h')) /\
                            length (snd (run o (wait_conversion hw n) h')) = n).
  { induction n as [|n IH]; intros h'; [split; reflexivity|].
    cbn [wait_conversion run bind read].
    pose proof (Hbusy h') as Hb. apply Z.eqb_neq in Hb. rewrite Hb. cbn [negb].
    destruct (IH (h' ++ [Asked read_ADCSRA (o h' read_ADCSRA)])) as [Hr Hl].
    rewrite Hr. cbn [snd length]. split; [reflexivity | now rewrite Hl]. }
  assert (Hm : forall h', exists es,
               run o (measure hw fuel) h' = (Spinning, es) /\
               length es = (4 + fuel)%nat).
  { intros h'. unfold measure. cbn [run bind perform read].
    match goal with
    | |- context [run o (wait_conversion hw fuel) ?h2] =>
        destruct (Hw fuel h2) as [Hr Hl]; rewrite Hr
    end.
    eexists. split; [reflexivity|]. cbn [length]. now rewrite Hl. }
  split.
  - destruct (Hm h) as (es & Hrun & Hl).
    exists es. split; [exact (run_readVcc_spinning _ _ _ _ Hrun) | exact Hl].
  - rewrite (run_do_send_via_readVcc o fuel h g Hp).
    destruct (Hm (h ++ [Asked LMIC_opmode (o h LMIC_opmode)]))
      as (es & Hrun & _).
    pose proof (run_readVcc_spinning _ _ _ _ Hrun) as Hv. rewrite Hv.
    eexists. split; [reflexivity|].
    rewrite enqueued_Asked.
    exact (touches_adc_quiet _ (readVcc_touches_adc _ _ _ _ _ _ Hv)).
Qed.

(** X8: in every run of [readVcc] that gets past the wait, the data
    registers are read once each, [ADCL] first and [ADCH] second, as
    the converter requires; a run that does not get past the wait
    reads neither. *)
Theorem readVcc_reads_low_then_high
        (o : oracle) (fuel : nat) (h : list event) :
  let '(r, es) := run o (readVcc hw fuel) h in
  adc_data_reads es =
    match r with
    | Spinning => []
    | _ => [read_ADCL; read_ADCH]
    end.
Proof.
  destruct (run o (measure hw fuel) h) as [[[]| |] es0] eqn:Hm;
    destruct (measure_facts _ _ _ _ _ Hm) as [Hnc Hd].
  - rewrite (run_readVcc _ _ _ _ _ Hm). cbn zeta.
    unfold adc_data_reads in *. rewrite omap_app, Hd.
    destruct (adc_result _ _ =? 0); reflexivity.
  - congruence.
  - rewrite (run_readVcc_spinning _ _ _ _ Hm). exact Hd.
Qed.

End SubmitterMore.

(** ** Readings and what is transmitted of them *)

(** With [ADCH] below 128 the shift does not reach the sign bit, and
    the result is [high] and [low] side by side. *)
Lemma adc_result_small (low high : Z) :
  0 <= low < 256 -> 0 <= high < 128 ->
  adc_result low high = high * 256 + low.
Proof.
  intros Hl Hh. unfold adc_result.
  rewrite Z.shiftl_mul_pow2 by lia. change (2 ^ 8) with 256.
  rewrite s16_small by lia.
  symmetry. apply Z.add_nocarry_lor.
  apply Z.bits_inj'. intros n Hn.
  rewrite Z.land_spec, Z.bits_0.
  destruct (Z.lt_ge_cases n 8) as [Hlt|Hge].
  - change 256 with (2 ^ 8). rewrite Z.mul_pow2_bits_low by lia. reflexivity.
  - rewrite <- (Z.mod_small low (2 ^ 8)) by (change (2 ^ 8) with 256; lia).
    rewrite Z.mod_pow2_bits_high by lia. apply andb_false_r.
Qed.

Lemma vcc_of_adc_small (low high : Z) :
  0 <= low < 256 -> 0 <= high < 128 -> high * 256 + low <> 0 ->
  vcc_of_adc low high = Ret (1125300 / (high * 256 + low)).
Proof.
  intros Hl Hh Hnz. unfold vcc_of_adc.
  rewrite (adc_result_small low high Hl Hh).
  apply Z.eqb_neq in Hnz. rewrite Hnz.
  rewrite Z.quot_div_nonneg by lia. reflexivity.
Qed.

(** X9: for results of a ten-bit conversion ([ADCH] below 4) that are
    not zero, the reading is [1125300 / result]; it lies between 1100
    and 1125300 mV, and a larger result gives a reading that is not
    larger. *)
Theorem reading_of_ten_bit_result (low high low' high' : Z) :
  0 <= low < 256 -> 0 <= high < 4 ->
  0 <= low' < 256 -> 0 <= high' < 4 ->
  0 < high * 256 + low ->
  high * 256 + low <= high' * 256 + low' ->
  exists v v',
    vcc_of_adc low high = Ret v /\
    vcc_of_adc low' high' = Ret v' /\
    v = 1125300 / (high * 256 + low) /\
    1100 <= v' /\ v' <= v /\ v <= 1125300.
Proof.
  intros Hl Hh Hl' Hh' Hpos Hle.
  exists (1125300 / (high * 256 + low)), (1125300 / (high' * 256 + low')).
  rewrite !vcc_of_adc_small by lia.
  split; [reflexivity|]. split; [reflexivity|]. split; [reflexivity|].
  split; [|split].
  - apply Z.div_le_lower_bound; lia.
  - apply Z.div_le_compat_l; lia.
  - apply Z.div_le_upper_bound; lia.
Qed.

(** X10: the two stores of a second build replace those of the first:
    what the buffer holds after two builds is what it holds after the
    second alone. *)
Theorem build_payload_overwrites (buf : list Z) (a b : Z) :
  fst (build_payload (fst (build_payload buf a)) b) =
  fst (build_payload buf b).
Proof. destruct buf as [|b0 [|b1 tl]]; reflexivity. Qed.

Section Readings.

Variable hw : platform.

(** X11: with no transmission pending, the 20-byte buffer and a
    ten-bit conversion that ended with a result [r] other than zero,
    [do_send] hands over two bytes that read back as
    [(1125300 / r) mod 2 ^ 16]; they read back as the reading itself
    exactly when [r] is at least 18. *)
Theorem do_send_transmits_reading
        (o : oracle) (fuel : nat) (h es : list event) (g : globals) :
  Z.land (u16 (o h LMIC_opmode)) (OP_TXRXPEND hw) = 0 ->
  length (payload g) = 20%nat ->
  let h1 := h ++ [Asked LMIC_opmode (o h LMIC_opmode)] in
  run o (measure hw fuel) h1 = (Returned tt, es) ->
  let low := u8 (o (h1 ++ es) read_ADCL) in
  let high :=
    u8 (o ((h1 ++ es) ++ [Asked read_ADCL (o (h1 ++ es) read_ADCL)])
          read_ADCH) in
  let r := high * 256 + low in
  high < 4 -> r <> 0 ->
  exists g' es',
    run o (do_send hw fuel g) h = (Returned g', es') /\
    enqueued es' = [LMIC_setTxData2 1 (payload g') 2 0] /\
    transmitted_mV (payload g') = (1125300 / r) mod 2 ^ 16 /\
    (transmitted_mV (payload g') = 1125300 / r <-> 18 <= r).
Proof.
  intros Hp Hlen h1 Hm low high r Hh Hnz.
  pose proof (u8_range (o (h1 ++ es) read_ADCL)) as Hl. fold low in Hl.
  pose proof (u8_range
                (o ((h1 ++ es) ++ [Asked read_ADCL (o (h1 ++ es) read_ADCL)])
                   read_ADCH)) as Hh0. fold high in Hh0.
  pose proof (run_readVcc hw o fuel h1 es Hm) as Hv. cbn zeta in Hv.
  fold low high in Hv.
  assert (Hvcc : vcc_of_adc low high = Ret (1125300 / r))
    by (apply vcc_of_adc_small; lia).
  unfold vcc_of_adc in Hvcc.
  destruct (adc_result low high =? 0); [discriminate|].
  injection Hvcc as Hq. rewrite Hq in Hv.
  rewrite (run_do_send_free hw o fuel h _ g _ Hp Hv).
  eexists. eexists. split; [reflexivity|]. cbn [payload].
  split.
  - apply enqueued_after_adc; [|reflexivity].
    exact (readVcc_touches_adc _ _ _ _ _ _ Hv).
  - rewrite transmitted_mod by lia. split; [reflexivity|].
    assert (Hr : 0 < r < 1024) by lia.
    assert (Hq0 : 0 <= 1125300 / r) by (apply Z.div_pos; lia).
    change (2 ^ 16) with 65536. split.
    + intros Heq.
      destruct (Z.lt_ge_cases r 18) as [Hlt|Hge]; [|exact Hge]. exfalso.
      pose proof (Z.mod_pos_bound (1125300 / r) 65536 ltac:(lia)).
      assert (65536 <= 1125300 / r)
        by (apply Z.div_le_lower_bound; lia).
      lia.
    + intros Hge. apply Z.mod_small. split; [exact Hq0|].
      apply Z.div_lt_upper_bound; lia.
Qed.

End Readings.

(** ** The start of a conversion, the variables' types, the budget *)

Section Running.

Variable hw : platform.

(** X12: [readVcc] begins by writing the selection to [ADMUX], waiting
    2 ms, reading [ADCSRA] and writing it back with [ADSC] set; of the
    eight bits written, [ADSC] is set and the other seven are as
    read. *)
Theorem start_conversion_sets_only_ADSC
        (o : oracle) (fuel : nat) (h : list event) :
  0 <= ADSC hw < 8 ->
  exists v w then_,
    snd (run o (readVcc hw fuel) h) =
      Did (write_ADMUX (ADMUX_vcc hw)) :: Did (delay 2) ::
      Asked read_ADCSRA v :: Did (write_ADCSRA w) :: then_ /\
    0 <= w < 256 /\
    Z.testbit w (ADSC hw) = true /\
    forall n, 0 <= n < 8 -> n <> ADSC hw -> Z.testbit w n = Z.testbit v n.
Proof.
  intros Hbit.
  set (h0 := (h ++ [Did (write_ADMUX (ADMUX_vcc hw))]) ++ [Did (delay 2)]).
  exists (o h0 read_ADCSRA),
         (u8 (Z.lor (u8 (o h0 read_ADCSRA)) (_BV (ADSC hw)))).
  assert (Hbits : forall n, 0 <= n < 8 ->
            Z.testbit (u8 (Z.lor (u8 (o h0 read_ADCSRA)) (_BV (ADSC hw)))) n =
            Z.testbit (o h0 read_ADCSRA) n || (ADSC hw =? n)).
  { intros n Hn. unfold u8, _BV.
    rewrite Z.mod_pow2_bits_low, Z.lor_spec, Z.mod_pow2_bits_low by lia.
    rewrite Z.shiftl_1_l, Z.pow2_bits_eqb by lia. reflexivity. }
  exists (drop 4 (snd (run o (readVcc hw fuel) h))).
  split; [|split; [apply u8_range|split]].
  - unfold readVcc. rewrite run_bind. unfold measure.
    cbn [run bind perform read]. fold h0.
    match goal with
    | |- context [run o (wait_conversion hw fuel) ?h'] =>
        destruct (run o (wait_conversion hw fuel) h') as [[[]| |] es']
    end; cbn [snd app].
    + match goal with
      | |- context [run o ?p ?h'] => destruct (run o p h') as [r2 es2]
      end.
      cbn [snd app]. reflexivity.
    + reflexivity.
    + reflexivity.
  - rewrite Hbits by lia. rewrite Z.eqb_refl. apply orb_true_r.
  - intros n Hn Hne. rewrite Hbits by lia.
    replace (ADSC hw =? n) with false by (symmetry; apply Z.eqb_neq; lia).
    apply orb_false_r.
Qed.





End Running.

(** ** The key callbacks *)

Lemma memcpy_P_fills (dest src : list Z) (n : nat) :
  (memcpy_P dest src n = None <->
   (length dest < n)%nat \/ (length src < n)%nat) /\
  forall dest',
    memcpy_P dest src n = Some dest' ->
    take n dest' = take n src /\
    drop n dest' = drop n dest /\
    length dest' = length dest /\
    memcpy_P dest' src n = Some dest'.
Proof.
  unfold memcpy_P.
  destruct (n <=? length dest)%nat eqn:Hd; cbn [andb];
    [destruct (n <=? length src)%nat eqn:Hs|].
  - apply Nat.leb_le in Hd, Hs. split.
    + split; [discriminate | lia].
    + intros dest' Heq. injection Heq as <-.
      assert (Hlt : length (take n src) = n) by (rewrite length_take; lia).
      rewrite take_app_length', drop_app_length' by (symmetry; exact Hlt).
      rewrite length_app, Hlt, length_drop.
      repeat split; try lia.
      replace (n <=? n + (length dest - n))%nat with true
        by (symmetry; apply Nat.leb_le; lia).
      reflexivity.
  - apply Nat.leb_gt in Hs. split; [split; [lia | reflexivity]|discriminate].
  - apply Nat.leb_gt in Hd. split; [split; [lia | reflexivity]|discriminate].
Qed.

(** X15: each of [os_getArtEui], [os_getDevEui] and [os_getDevKey]
    needs a buffer of 8, 8 and 16 bytes and is undefined on a shorter
    one; on a buffer long enough it puts its key at the front, leaves
    the bytes behind the key and the length as they were, and doing it
    again changes nothing. *)
Theorem key_callbacks_fill_front (buf : list Z) :
  (os_getArtEui buf = None <-> (length buf < 8)%nat) /\
  (os_getDevEui buf = None <-> (length buf < 8)%nat) /\
  (os_getDevKey buf = None <-> (length buf < 16)%nat) /\
  (forall buf',
      os_getArtEui buf = Some buf' ->
      take 8 buf' = APPEUI /\ drop 8 buf' = drop 8 buf /\
      length buf' = length buf /\ os_getArtEui buf' = Some buf') /\
  (forall buf',
      os_getDevEui buf = Some buf' ->
      take 8 buf' = DEVEUI /\ drop 8 buf' = drop 8 buf /\
      length buf' = length buf /\ os_getDevEui buf' = Some buf') /\
  (forall buf',
      os_getDevKey buf = Some buf' ->
      take 16 buf' = APPKEY /\ drop 16 buf' = drop 16 buf /\
      length buf' = length buf /\ os_getDevKey buf' = Some buf').
Proof.
  unfold os_getArtEui, os_getDevEui, os_getDevKey.
  assert (Hnone : forall src n,
             n = length src ->
             (memcpy_P buf src n = None <-> (length buf < n)%nat)).
  { intros src n Hn. destruct (memcpy_P_fills buf src n) as [[H1 H2] _].
    split; [intros Heq; destruct (H1 Heq); lia | intros Hlt; apply H2; lia]. }
  split; [apply Hnone; reflexivity|].
  split; [apply Hnone; reflexivity|].
  split; [apply Hnone; reflexivity|].
  split; [|split].
  - intros buf' Heq. exact (proj2 (memcpy_P_fills buf APPEUI 8) buf' Heq).
  - intros buf' Heq. exact (proj2 (memcpy_P_fills buf DEVEUI 8) buf' Heq).
  - intros buf' Heq. exact (proj2 (memcpy_P_fills buf APPKEY 16) buf' Heq).
Qed.

(** ** The further theorems at work on the board of the examples *)



(** Both registers reading 0 when a submission is tried. *)
Lemma do_send_at_zero_reading :
  exists es,
    run (idle_with_adc 0 0) (do_send atmega328p 1 initial) [] = (Crashed, es) /\
    enqueued es = [].
Proof.
  assert (Hp : Z.land (u16 (idle_with_adc 0 0 [] LMIC_opmode))
                      (OP_TXRXPEND atmega328p) = 0) by reflexivity.
  assert (Hm : run (idle_with_adc 0 0) (measure atmega328p 1)
                   ([] ++ [Asked LMIC_opmode
                             (idle_with_adc 0 0 [] LMIC_opmode)]) =
               (Returned tt,
                [Did (write_ADMUX 78); Did (delay 2); Asked read_ADCSRA 0;
                 Did (write_ADCSRA 64); Asked read_ADCSRA 0]))
    by (vm_compute; reflexivity).
  assert (Hz : adc_result (u8 0) (u8 0) = 0) by reflexivity.
  destruct (do_send_crashes_on_zero_reading atmega328p (idle_with_adc 0 0) 1
              [] _ initial Hp Hm Hz) as (es & Hrun & He & _).
  exists es. split; [exact Hrun | exact He].
Defined.

(** A converter that never ends, and a budget of ten polls. *)
Lemma do_send_at_stuck_converter :
  exists es,
    run stuck (do_send atmega328p 10 initial) [] = (Spinning, es) /\
    enqueued es = [].
Proof.
  assert (Hbusy : forall h',
             Z.land (u8 (stuck h' read_ADCSRA)) (_BV (ADSC atmega328p)) <> 0)
    by (intros h'; vm_compute; discriminate).
  assert (Hp : Z.land (u16 (stuck [] LMIC_opmode)) (OP_TXRXPEND atmega328p) = 0)
    by reflexivity.
  destruct (readVcc_has_no_timeout atmega328p stuck 10 [] initial Hbusy Hp)
    as (_ & es & Hrun & He).
  exists es. split; [exact Hrun | exact He].
Defined.

(** Results 304 and 1023: 3701 mV and 1100 mV. *)
Lemma reading_at_304_and_1023 :
  exists v v',
    vcc_of_adc 48 1 = Ret v /\ vcc_of_adc 255 3 = Ret v' /\
    v = 1125300 / 304 /\ 1100 <= v' /\ v' <= v.
Proof.
  destruct (reading_of_ten_bit_result 48 1 255 3
              ltac:(lia) ltac:(lia) ltac:(lia) ltac:(lia) ltac:(lia) ltac:(lia))
    as (v & v' & Hv & Hv' & Heq & Hlo & Hle & _).
  exists v, v'. repeat split; assumption.
Defined.

(** A submission with the registers reading 304: 3701 is read back. *)
Lemma do_send_transmits_3701 :
  exists g' es,
    run (idle_with_adc 48 1) (do_send atmega328p 1 initial) [] =
      (Returned g', es) /\
    transmitted_mV (payload g') = 3701.
Proof.
  assert (Hp : Z.land (u16 (idle_with_adc 48 1 [] LMIC_opmode))
                      (OP_TXRXPEND atmega328p) = 0) by reflexivity.
  assert (Hlen : length (payload initial) = 20%nat) by reflexivity.
  assert (Hm : run (idle_with_adc 48 1) (measure atmega328p 1)
                   ([] ++ [Asked LMIC_opmode
                             (idle_with_adc 48 1 [] LMIC_opmode)]) =
               (Returned tt,
                [Did (write_ADMUX 78); Did (delay 2); Asked read_ADCSRA 0;
                 Did (write_ADCSRA 64); Asked read_ADCSRA 0]))
    by (vm_compute; reflexivity).
  assert (Hh : u8 1 < 4) by (vm_compute; reflexivity).
  assert (Hnz : u8 1 * 256 + u8 48 <> 0) by (vm_compute; discriminate).
  destruct (do_send_transmits_reading atmega328p (idle_with_adc 48 1) 1
              [] _ initial Hp Hlen Hm Hh Hnz)
    as (g' & es' & Hrun & _ & Ht & _).
  exists g', es'. split; [exact Hrun | exact Ht].
Defined.

(** On the ATmega328P, [ADSC] is bit 6. *)
Lemma start_conversion_on_atmega328p :
  0 <= ADSC atmega328p < 8 /\
  exists v w then_,
    snd (run (idle_with_adc 48 1) (readVcc atmega328p 1) []) =
      Did (write_ADMUX 78) :: Did (delay 2) ::
      Asked read_ADCSRA v :: Did (write_ADCSRA w) :: then_ /\
    Z.testbit w 6 = true.
Proof.
  assert (Hbit : 0 <= ADSC atmega328p < 8) by (cbn; lia).
  split; [exact Hbit|].
  destruct (start_conversion_sets_only_ADSC atmega328p (idle_with_adc 48 1) 1
              [] Hbit) as (v & w & then_ & Hrun & _ & Hset & _).
  exists v, w, then_. split; [exact Hrun | exact Hset].
Defined.


